(** * ELL / EMLL: Variant, ISerializable, LinearPredictor and the forestTrainer driver

    A shallow embedding of
      - libraries/utilities/tcc/Variant.tcc
      - libraries/utilities/include/ISerializable.h
      - libraries/predictors/src/LinearPredictor.cpp
      - tools/trainers/forestTrainer/src/main.cpp
    followed by the properties of these functions.

    Conventions.  A C++ function that can throw returns an [outcome]; a member
    function that mutates [*this] takes the object and the free store and
    returns the new object and the new store next to its outcome, so that the
    state left behind by a throw is visible.  [double] is the kernel's binary64
    [float]. *)

From Stdlib Require Import ZArith List Floats Lia.
From stdpp Require Import base decidable option gmap strings pretty.

Local Open Scope string_scope.
Local Open Scope list_scope.
Local Open Scope nat_scope.

(* ===================================================================== *)
(** * utilities                                                           *)
(* ===================================================================== *)

Module utilities.

(** ** Exceptions *)

(** The error codes of [InputException] that the sources use. *)
Inductive InputExceptionErrors : Set :=
  | typeMismatch
  | invalidArgument.

(** The exception objects that the embedded code throws or catches.
    [InputException] derives from [utilities::Exception]; [LogicException]
    and [SystemException] stand for the other classes that do.  The two
    standard exceptions and the two command line parser exceptions do not. *)
Inductive exception : Type :=
  | InputException (code : InputExceptionErrors) (message : string)
  | LogicException (message : string)
  | SystemException (message : string)
  | CommandLineParserPrintHelpException (helpText : string)
  | CommandLineParserErrorException (parseErrors : list string)
  | std_runtime_error (what : string)
  | std_bad_alloc.

(** [catch (const utilities::Exception&)] matches exactly these. *)
Definition is_utilities_Exception (e : exception) : bool :=
  match e with
  | InputException _ _ | LogicException _ | SystemException _ => true
  | _ => false
  end.

(** [exception.GetMessage()] for a [utilities::Exception]; for the others
    the text they carry. *)
Definition GetMessage (e : exception) : string :=
  match e with
  | InputException _ m | LogicException m | SystemException m => m
  | CommandLineParserPrintHelpException t => t
  | CommandLineParserErrorException _ => ""
  | std_runtime_error w => w
  | std_bad_alloc => "std::bad_alloc"
  end.

(** What a call does: return normally, throw, or run into undefined
    behaviour (a null or dangling pointer is dereferenced). *)
Inductive outcome (A : Type) : Type :=
  | Return (a : A)
  | Throw (e : exception)
  | Undefined.
Arguments Return {A} a.
Arguments Throw {A} e.
Arguments Undefined {A}.

(** ** The types a Variant is instantiated with *)

(** The template argument [ValueType]: the object types without cv-qualifier.
    A reference or cv-qualified [ValueType] (as [MakeVariant<const int>] or
    the assignment of an lvalue, which deduces [ValueType = U&]) has the
    [typeid] of the plain type but instantiates another [VariantDerived]; such
    instantiations are outside this universe, and what is proved below is
    proved of Variants built at the types of the universe. *)
Inductive cpp_type : Set :=
  | t_bool
  | t_char
  | t_int
  | t_size_t
  | t_double
  | t_nullptr_t
  | t_pointer (pointee : cpp_type)
  | t_string
  | t_vector (element : cpp_type).

#[export] Instance cpp_type_eq_dec : EqDecision cpp_type.
Proof. solve_decision. Defined.

(** The values of each type.  A raw pointer is an address; what it points to
    is not owned by the Variant. *)
Fixpoint value_of (T : cpp_type) : Type :=
  match T with
  | t_bool => bool
  | t_char => Ascii.ascii
  | t_int => Z
  | t_size_t => N
  | t_double => float
  | t_nullptr_t => unit
  | t_pointer _ => N
  | t_string => string
  | t_vector E => list (value_of E)
  end.

(** [std::is_fundamental<T>::value]: arithmetic types, [void] and
    [std::nullptr_t]. *)
Definition is_fundamental (T : cpp_type) : bool :=
  match T with
  | t_bool | t_char | t_int | t_size_t | t_double | t_nullptr_t => true
  | t_pointer _ | t_string | t_vector _ => false
  end.

(** [std::is_pointer<T>::value]: object and function pointers only. *)
Definition is_pointer (T : cpp_type) : bool :=
  match T with
  | t_pointer _ => true
  | _ => false
  end.

(** [std::type_index(typeid(T))]: equal exactly for equal types. *)
Definition type_index : Set := cpp_type.
Definition typeid (T : cpp_type) : type_index := T.

(** ** VariantDerived<ValueType> and VariantBase *)

(** [VariantDerived<ValueType>] has the one member [_value], here
    [derived_value] (the member of the same name of [Variant] keeps the name). *)
Record VariantDerived (ValueType : cpp_type) : Type :=
  mkVariantDerived { derived_value : value_of ValueType }.
Arguments mkVariantDerived {ValueType} _.
Arguments derived_value {ValueType} _.

(** An object seen through [VariantBase*]: its dynamic type is some
    instantiation of [VariantDerived].  [VariantBase::_type] is set by the
    only constructor call, [VariantBase(typeid(ValueType))], so it is the
    first component. *)
Definition VariantBase : Type := { ValueType : cpp_type & VariantDerived ValueType }.

Definition upcast {ValueType} (d : VariantDerived ValueType) : VariantBase :=
  existT ValueType d.

(** The member [VariantBase::_type], "redundant with type in Variant class". *)
Definition VariantBase_type (b : VariantBase) : type_index := typeid (projT1 b).

(** [dynamic_cast<const VariantDerived<ValueType>*>(this)]; [None] is the null
    pointer. *)
Definition dynamic_cast (ValueType : cpp_type) (this : VariantBase)
  : option (VariantDerived ValueType) :=
  match decide (projT1 this = ValueType) with
  | left e => Some (eq_rect (projT1 this) VariantDerived (projT2 this) ValueType e)
  | right _ => None
  end.

(** [VariantDerived<ValueType>::GetValue] *)
Definition VariantDerived_GetValue {ValueType} (this : VariantDerived ValueType)
  : value_of ValueType := derived_value this.

(** [VariantBase::GetValue<ValueType>] *)
Definition VariantBase_GetValue (ValueType : cpp_type) (this : VariantBase)
  : outcome (value_of ValueType) :=
  match dynamic_cast ValueType this with
  | None => Throw (InputException typeMismatch "Variant::GetValue called with wrong type.")
  | Some thisPtr => Return (VariantDerived_GetValue thisPtr)
  end.

(** [VariantDerived::IsPrimitiveType], [IsSerializable], [IsPointer], called
    through the virtual table of [VariantBase]. *)
Definition IsPrimitiveType (this : VariantBase) : bool := is_fundamental (projT1 this).
Definition IsSerializable (this : VariantBase) : bool := negb (IsPrimitiveType this).
Definition IsPointer (this : VariantBase) : bool := is_pointer (projT1 this).

(** ** The free store *)

(** [std::unique_ptr<VariantBase>]: null or the address of an object. *)
Definition unique_ptr : Set := option positive.

(** The objects allocated with [new], and how many objects the store can
    hold.  A new-expression either returns the address of an object that was
    not there before or throws: [std::bad_alloc] when the store is full.  (An
    exception of the copy constructor of [ValueType] leaves the expression at
    the same point.) *)
Record store : Type := mkStore {
  objects : gmap positive VariantBase;
  capacity : nat
}.

Definition has_room (h : store) : Prop := size (objects h) < capacity h.

(** [new VariantDerived<ValueType>(val)] *)
Definition new_VariantDerived (ValueType : cpp_type) (val : value_of ValueType) (h : store)
  : outcome (positive * store) :=
  if decide (has_room h) then
    let p := fresh (dom (objects h)) in
    Return (p, mkStore (<[p := upcast (mkVariantDerived val)]> (objects h)) (capacity h))
  else Throw std_bad_alloc.

(** The destructor of a [unique_ptr]: [delete] on a non-null pointer. *)
Definition unique_ptr_destroy (p : unique_ptr) (h : store) : store :=
  match p with
  | None => h
  | Some a => mkStore (delete a (objects h)) (capacity h)
  end.

(** [*p] for a [unique_ptr]. *)
Definition deref (p : unique_ptr) (h : store) : option VariantBase :=
  match p with
  | None => None
  | Some a => objects h !! a
  end.

(** ** Variant *)

Record Variant : Type := mkVariant {
  _type : type_index;
  _value : unique_ptr
}.

(** [MakeVariant<ValueType>(args...)] with the one argument of
    [VariantDerived]'s constructor. *)
Definition MakeVariant (ValueType : cpp_type) (val : value_of ValueType) (h : store)
  : outcome (Variant * store) :=
  match new_VariantDerived ValueType val h with
  | Return (derivedPtr, h') =>
      let basePtr := derivedPtr in
      Return (mkVariant (typeid ValueType) (Some basePtr), h')
  | Throw e => Throw e
  | Undefined => Undefined
  end.

(** [Variant::GetValue<ValueType>] *)
Definition GetValue (ValueType : cpp_type) (this : Variant) (h : store)
  : outcome (value_of ValueType) :=
  if decide (typeid ValueType ≠ _type this) then
    Throw (std_runtime_error "Bad variant access")
  else
    match deref (_value this) h with
    | Some b => VariantBase_GetValue ValueType b
    | None => Undefined
    end.

(** [Variant::IsType<ValueType>] *)
Definition IsType (ValueType : cpp_type) (this : Variant) : bool :=
  bool_decide (typeid ValueType = _type this).

(** [Variant::operator=(ValueType&& value)] for an rvalue argument of the
    type [ValueType] (for an lvalue the forwarding reference deduces a
    reference type), statement by statement.  The result carries the Variant
    and the store as the call leaves them, also when it leaves by an
    exception. *)
Definition assign (ValueType : cpp_type) (value : value_of ValueType)
    (this : Variant) (h : store) : outcome unit * Variant * store :=
  let this1 := mkVariant (typeid ValueType) (_value this) in
  match new_VariantDerived ValueType value h with
  | Return (derivedPtr, h1) =>
      let basePtr := derivedPtr in
      let h2 := unique_ptr_destroy (_value this1) h1 in
      (Return tt, mkVariant (_type this1) (Some basePtr), h2)
  | Throw e => (Throw e, this1, h)
  | Undefined => (Undefined, this1, h)
  end.

(** [VariantDerived<ValueType>::Clone], called on the object at [this]. *)
Definition Clone (this : positive) (h : store) : outcome (unique_ptr * store) :=
  match deref (Some this) h with
  | None => Undefined
  | Some b =>
      (* [b] is a [VariantDerived<ValueType>] for [ValueType := projT1 b] *)
      match new_VariantDerived (projT1 b) (derived_value (projT2 b)) h with
      | Return (ptr, h') => Return (Some ptr, h')
      | Throw e => Throw e
      | Undefined => Undefined
      end
  end.

(** [~Variant]: the member [_value] is destroyed. *)
Definition destroy (this : Variant) (h : store) : store :=
  unique_ptr_destroy (_value this) h.

(** A Variant that owns an object agreeing with its stored type: what
    [MakeVariant] and a completed assignment establish. *)
Definition holds (this : Variant) (h : store) (T : cpp_type) (v : value_of T) : Prop :=
  _type this = typeid T ∧ deref (_value this) h = Some (upcast (mkVariantDerived v)).

(** The pointer of the Variant is null or the address of an object of the
    store, as it is for a [unique_ptr] that owns what it points to. *)
Definition owns_valid (this : Variant) (h : store) : Prop :=
  match _value this with
  | None => True
  | Some p => is_Some (objects h !! p)
  end.

End utilities.

(* ===================================================================== *)
(** * utilities::ISerializable                                            *)
(* ===================================================================== *)

Module ISerializable.

(** The body of the virtual member [ISerializable::GetRuntimeTypeName]. *)
Definition GetRuntimeTypeName_body : string := "ISerializable".

(** The static member [ISerializable::GetTypeName]. *)
Definition GetTypeName : string := "ISerializable".

(** An object whose class derives from [ISerializable]: the slot of the
    virtual member holds the overriding body, if the class has one.
    [Serialize] and [Deserialize] are pure virtual and have no body here. *)
Record object : Type := mkObject {
  GetRuntimeTypeName_override : option string
}.

(** The virtual call [obj.GetRuntimeTypeName()]. *)
Definition GetRuntimeTypeName (this : object) : string :=
  match GetRuntimeTypeName_override this with
  | Some body => body
  | None => GetRuntimeTypeName_body
  end.

(** An object of the ISerializable kind itself: nothing is overridden. *)
Definition of_ISerializable_kind : object := mkObject None.

End ISerializable.

(* ===================================================================== *)
(** * layers (Model, Coordinate, Coordinatewise, Sum)                     *)
(* ===================================================================== *)

(** The arithmetic of the element type.  The code computes in [double]; the
    definitions are written over the three operations they use. *)
Class Arithmetic (R : Type) : Type := {
  zero : R;
  plus : R → R → R;
  times : R → R → R
}.

(** [double]: IEEE 754 binary64, round to nearest even. *)
#[export] Instance double_arithmetic : Arithmetic float := {|
  zero := 0%float;
  plus := PrimFloat.add;
  times := PrimFloat.mul
|}.

Module layers.
Import utilities.

Section Layers.
Context {R : Type} `{Arithmetic R}.

(** A coordinate is [(layer index, element index)]. *)
Definition Coordinate : Set := (nat * nat)%type.
Definition CoordinateList : Set := list Coordinate.

Inductive OperationType : Set := add | multiply.

(** Modelled from the spec: the layer classes [Coordinatewise] and [Sum]
    are not among the sources.  A coordinatewise layer combines each input
    element with its own constant; a sum layer adds up its inputs into one
    output. *)
Inductive Layer : Type :=
  | Coordinatewise (values : list R) (inputCoordinates : CoordinateList)
                   (operationType : OperationType)
  | Sum (inputCoordinates : CoordinateList).

(** Modelled from the spec: the constructor
    [Coordinatewise(double value, Coordinate coordinate, OperationType)] of a
    layer with one element. *)
Definition Coordinatewise1 (value : R) (coordinate : Coordinate)
    (operationType : OperationType) : Layer :=
  Coordinatewise [value] [coordinate] operationType.

(** Modelled from the spec: the coordinates a layer reads. *)
Definition GetInputCoordinates (layer : Layer) : CoordinateList :=
  match layer with
  | Coordinatewise _ cs _ => cs
  | Sum cs => cs
  end.

(** Modelled from the spec: the number of outputs of a layer, one per input
    coordinate for a coordinatewise layer and one for a sum. *)
Definition GetOutputDimension (layer : Layer) : nat :=
  match layer with
  | Coordinatewise _ cs _ => length cs
  | Sum _ => 1
  end.

(** Modelled from the spec: [layers::Model] is not among the sources.  It
    owns its layers in the order they were added; layer 0 is the model's
    input, which is not stored, so an empty model has one layer. *)
Record Model : Type := mkModel { _layers : list Layer }.

Definition empty_Model : Model := mkModel [].

(** Modelled from the spec: the number of layers, the input included. *)
Definition NumLayers (model : Model) : nat := S (length (_layers model)).

(** Modelled from the spec: the coordinates
    [(layerIndex, 0) .. (layerIndex, size-1)] of the outputs of a layer. *)
Definition BuildCoordinateList (layerIndex size : nat) : CoordinateList :=
  map (fun i => (layerIndex, i)) (seq 0 size).

(** Modelled from the spec: [Model::AddLayer].  A layer may only refer to
    layers that are already present, anything else is rejected (the spec
    does not name the exception); the new layer is appended and the
    coordinates of its outputs are returned. *)
Definition AddLayer (model : Model) (layer : Layer) : outcome (CoordinateList * Model) :=
  let layerIndex := NumLayers model in
  if forallb (fun c => Nat.ltb (fst c) layerIndex) (GetInputCoordinates layer) then
    Return (BuildCoordinateList layerIndex (GetOutputDimension layer),
            mkModel (_layers model ++ [layer]))
  else Throw (LogicException "new layer references a layer that is not in the model").

(** Modelled from the spec: the element a coordinate refers to, among the
    output vectors of the layers computed so far. *)
Definition element (outputs : list (list R)) (c : Coordinate) : R :=
  nth (snd c) (nth (fst c) outputs []) zero.

(** Modelled from the spec: what a layer computes from the outputs of the
    layers before it. *)
Definition Compute (layer : Layer) (outputs : list (list R)) : list R :=
  match layer with
  | Coordinatewise values cs add =>
      map (fun vc => plus (fst vc) (element outputs (snd vc))) (combine values cs)
  | Coordinatewise values cs multiply =>
      map (fun vc => times (fst vc) (element outputs (snd vc))) (combine values cs)
  | Sum cs =>
      [fold_left (fun acc c => plus acc (element outputs c)) cs zero]
  end.

(** Modelled from the spec: evaluation of a model on an input vector.  The
    result lists the output vector of every layer, the input first. *)
Definition Evaluate (model : Model) (input : list R) : list (list R) :=
  fold_left (fun outputs layer => outputs ++ [Compute layer outputs])
            (_layers model) [input].

End Layers.

Arguments Layer R : clear implicits.
Arguments Model R : clear implicits.
End layers.

(* ===================================================================== *)
(** * predictors::LinearPredictor                                         *)
(* ===================================================================== *)

Module predictors.
Import utilities layers.

Section LinearPredictor.
Context {R : Type} `{Arithmetic R}.

(** [linear::DoubleVector], a [std::vector<double>]. *)
Definition DoubleVector : Type := list R.

Record LinearPredictor : Type := mkLinearPredictor {
  _w : DoubleVector;
  _b : R
}.

(** Modelled from the spec: [IDataVector::Dot] is not among the sources.
    The dot product of the data vector with the array it is given: the
    products are accumulated from 0 in index order over the entries of the
    data vector, which may not be longer than the array. *)
Definition Dot (dataVector : list R) (p_other : DoubleVector) : R :=
  fold_left (fun result xw => plus result (times (fst xw) (snd xw)))
            (combine dataVector p_other) zero.


(** [LinearPredictor::Predict] *)
Definition Predict (this : LinearPredictor) (dataVector : list R) : R :=
  plus (Dot dataVector (_w this)) (_b this).




(** [LinearPredictor::AddToModel].  [sumLayerCoordinates[0]] is outside
    the list only if the sum layer had no output. *)
Definition AddToModel (this : LinearPredictor) (model : Model R)
    (inputCoordinates : CoordinateList) : outcome (CoordinateList * Model R) :=
  let weightsLayer := Coordinatewise (_w this) inputCoordinates multiply in
  match AddLayer model weightsLayer with
  | Return (weightsLayerCoordinates, model1) =>
      let sumLayer := Sum weightsLayerCoordinates in
      match AddLayer model1 sumLayer with
      | Return (sumLayerCoordinates, model2) =>
          match sumLayerCoordinates !! 0%nat with
          | Some sum0 =>
              let biasLayer := Coordinatewise1 (_b this) sum0 add in
              match AddLayer model2 biasLayer with
              | Return (biasLayerCoordinates, model3) =>
                  Return (biasLayerCoordinates, model3)
              | Throw e => Throw e
              | Undefined => Undefined
              end
          | None => Undefined
          end
      | Throw e => Throw e
      | Undefined => Undefined
      end
  | Throw e => Throw e
  | Undefined => Undefined
  end.

End LinearPredictor.

Arguments LinearPredictor R : clear implicits.
End predictors.

(* ===================================================================== *)
(** * tools/trainers/forestTrainer: main                                  *)
(* ===================================================================== *)

Module forestTrainer.
Import utilities.

Inductive stream : Set := cout | cerr.

(** What was written, one entry per output statement, oldest first. *)
Definition output : Type := list (stream * string).

(** How [main] ends: it returns a status, or an exception leaves it
    ([std::terminate]), or the behaviour is undefined. *)
Inductive termination : Type :=
  | returns (status : Z)
  | terminate (e : exception)
  | undefined.

(** The collaborators of the driver, none of which is among the sources:
    each call is given by its outcome, and each parsed argument and each
    value that is printed or tested by its value. *)
Record Collaborators : Type := mkCollaborators {
  Parse : outcome unit;
  verbose : bool;
  GetCurrentValuesString : string;
  LoadMap : outcome unit;
  parsedDataDimension : N;
  HasInputFile : bool;
  AddInputNode : outcome unit;
  GetMappedDataset : outcome unit;
  MakeForestTrainer : outcome unit;
  MakeEvaluator : outcome unit;
  MakeMultiEpochIncrementalTrainer : outcome unit;
  GetRandomEngine : outcome unit;
  RandomPermute : outcome unit;
  Update : outcome unit;
  GetPredictor : outcome unit;
  NumTrees : N;
  evaluator_Print : string;
  outputModelFilename : string;
  SaveModel : outcome unit
}.

(** Statements of [main]: they may throw and they append to the output. *)
Definition driver (A : Type) : Type := output → outcome A * output.

Definition ret {A} (a : A) : driver A := λ out, (Return a, out).

Definition bind {A B} (c : driver A) (k : A → driver B) : driver B :=
  λ out,
    match c out with
    | (Return a, out') => k a out'
    | (Throw e, out') => (Throw e, out')
    | (Undefined, out') => (Undefined, out')
    end.

Definition throw {A} (e : exception) : driver A := λ out, (Throw e, out).

(** A call of a collaborator: its outcome, nothing written. *)
Definition call {A} (o : outcome A) : driver A := λ out, (o, out).

(** [stream << text << std::endl] *)
Definition print (s : stream) (text : string) : driver unit :=
  λ out, (Return tt, out ++ [(s, text)]).

Definition when (b : bool) (c : driver unit) : driver unit :=
  if b then c else ret tt.

Declare Scope driver_scope.
Delimit Scope driver_scope with driver.
Notation "c1 ;; c2" := (bind c1 (λ _, c2))
  (at level 100, c2 at level 200, right associativity) : driver_scope.

(** The [try] block of [main]. *)
Definition try_block (env : Collaborators) : driver unit :=
  (call (Parse env) ;;
   when (verbose env)
     (print cout "Sorting Tree Trainer" ;;
      print cout (GetCurrentValuesString env)) ;;
   call (LoadMap env) ;;
   when (verbose env) (print cout "Loading data ...") ;;
   (let numColumns := parsedDataDimension env in
    if negb (HasInputFile env) then
      (if N.eqb numColumns 0 then
         throw (InputException invalidArgument
                  "Error, must specify a data dimension if not specifying an input map")
       else ret tt) ;;
      call (AddInputNode env)
    else ret tt) ;;
   call (GetMappedDataset env) ;;
   call (MakeForestTrainer env) ;;
   when (verbose env) (call (MakeEvaluator env)) ;;
   call (MakeMultiEpochIncrementalTrainer env) ;;
   call (GetRandomEngine env) ;;
   call (RandomPermute env) ;;
   when (verbose env) (print cout "Training ...") ;;
   call (Update env) ;;
   call (GetPredictor env) ;;
   when (verbose env)
     (print cout ("Finished training forest with " +:+ pretty (NumTrees env) +:+ " trees.") ;;
      print cout "Training error" ;;
      print cout (evaluator_Print env) ;;
      print cout "") ;;
   (if bool_decide (outputModelFilename env ≠ "") then call (SaveModel env) else ret tt))%driver.

(** [main]: the [try] block and its three handlers, in their order. *)
Definition main (env : Collaborators) : termination * output :=
  match try_block env [] with
  | (Return _, out) => (returns 0, out)
  | (Throw e, out) =>
      match e with
      | CommandLineParserPrintHelpException helpText =>
          (returns 0, out ++ [(cout, helpText)])
      | CommandLineParserErrorException parseErrors =>
          (returns 1,
           out ++ (cerr, "Command line parse error:") :: map (λ m, (cerr, m)) parseErrors)
      | _ =>
          if is_utilities_Exception e then
            (returns 1, out ++ [(cerr, "exception: " +:+ GetMessage e)])
          else (terminate e, out)
      end
  | (Undefined, out) => (undefined, out)
  end.







(** All collaborators up to the training step return. *)
Definition returns_until_Update (env : Collaborators) : Prop :=
  Parse env = Return tt
  ∧ LoadMap env = Return tt
  ∧ (HasInputFile env = true ∨ parsedDataDimension env ≠ 0%N)
  ∧ AddInputNode env = Return tt
  ∧ GetMappedDataset env = Return tt
  ∧ MakeForestTrainer env = Return tt
  ∧ MakeEvaluator env = Return tt
  ∧ MakeMultiEpochIncrementalTrainer env = Return tt
  ∧ GetRandomEngine env = Return tt
  ∧ RandomPermute env = Return tt.

(** The driver run without an input map and without a data dimension: the
    [try] block itself throws the [InputException]. *)
Definition no_map_no_dimension : Collaborators :=
  {| Parse := Return tt; verbose := true; GetCurrentValuesString := "";
     LoadMap := Return tt; parsedDataDimension := 0; HasInputFile := false;
     AddInputNode := Return tt; GetMappedDataset := Return tt;
     MakeForestTrainer := Return tt; MakeEvaluator := Return tt;
     MakeMultiEpochIncrementalTrainer := Return tt; GetRandomEngine := Return tt;
     RandomPermute := Return tt; Update := Return tt; GetPredictor := Return tt;
     NumTrees := 0; evaluator_Print := ""; outputModelFilename := "";
     SaveModel := Return tt |}.

(** Every collaborator that [main] gets to call returns: the input node is
    only added without an input map, and then the data dimension must not be
    0; the evaluator is only made in verbose mode; the model is only saved
    under a file name that is not empty. *)
Definition runs_to_completion (env : Collaborators) : Prop :=
  Parse env = Return tt
  ∧ LoadMap env = Return tt
  ∧ (HasInputFile env = false →
     parsedDataDimension env ≠ 0%N ∧ AddInputNode env = Return tt)
  ∧ GetMappedDataset env = Return tt
  ∧ MakeForestTrainer env = Return tt
  ∧ (verbose env = true → MakeEvaluator env = Return tt)
  ∧ MakeMultiEpochIncrementalTrainer env = Return tt
  ∧ GetRandomEngine env = Return tt
  ∧ RandomPermute env = Return tt
  ∧ Update env = Return tt
  ∧ GetPredictor env = Return tt
  ∧ (outputModelFilename env ≠ "" → SaveModel env = Return tt).

(** A run with an input map, no output file name and no verbose mode, in
    which the three collaborators that are then not called would throw. *)
Definition skips_three_calls : Collaborators :=
  {| Parse := Return tt; verbose := false; GetCurrentValuesString := "";
     LoadMap := Return tt; parsedDataDimension := 0; HasInputFile := true;
     AddInputNode := Throw (LogicException "not called");
     GetMappedDataset := Return tt;
     MakeForestTrainer := Return tt;
     MakeEvaluator := Throw (LogicException "not called");
     MakeMultiEpochIncrementalTrainer := Return tt; GetRandomEngine := Return tt;
     RandomPermute := Return tt; Update := Return tt; GetPredictor := Return tt;
     NumTrees := 0; evaluator_Print := ""; outputModelFilename := "";
     SaveModel := Throw (LogicException "not called") |}.

(** The exceptions that one of the three handlers of [main] matches. *)
Definition caught_by_main (e : exception) : bool :=
  match e with
  | CommandLineParserPrintHelpException _ | CommandLineParserErrorException _ => true
  | _ => is_utilities_Exception e
  end.

(** A verbose run without an input map in which the parser and the map
    loader end as given and every other collaborator returns. *)
Definition run_with (parse loadMap : outcome unit) (dimension : N) : Collaborators :=
  {| Parse := parse; verbose := true; GetCurrentValuesString := "";
     LoadMap := loadMap; parsedDataDimension := dimension; HasInputFile := false;
     AddInputNode := Return tt; GetMappedDataset := Return tt;
     MakeForestTrainer := Return tt; MakeEvaluator := Return tt;
     MakeMultiEpochIncrementalTrainer := Return tt; GetRandomEngine := Return tt;
     RandomPermute := Return tt; Update := Return tt; GetPredictor := Return tt;
     NumTrees := 0; evaluator_Print := ""; outputModelFilename := "";
     SaveModel := Return tt |}.

End forestTrainer.

(* ===================================================================== *)
(** * Properties of Variant                                               *)
(* ===================================================================== *)

Section VariantFacts.
Import utilities.

(** ** The checked downcast *)

Lemma dynamic_cast_upcast (T : cpp_type) (d : VariantDerived T) :
  dynamic_cast T (upcast d) = Some d.
Proof.
  unfold dynamic_cast, upcast; simpl.
  destruct (decide (T = T)) as [e | n]; [ | congruence ].
  by rewrite (proof_irrel e eq_refl).
Qed.

Lemma dynamic_cast_other (T : cpp_type) (b : VariantBase) :
  projT1 b ≠ T → dynamic_cast T b = None.
Proof.
  intros Hne. unfold dynamic_cast.
  destruct (decide (projT1 b = T)); [ contradiction | reflexivity ].
Qed.

Lemma VariantBase_GetValue_same (T : cpp_type) (v : value_of T) :
  VariantBase_GetValue T (upcast (mkVariantDerived v)) = Return v.
Proof. unfold VariantBase_GetValue. by rewrite dynamic_cast_upcast. Qed.

Lemma VariantBase_GetValue_other (T U : cpp_type) (v : value_of T) :
  T ≠ U →
  VariantBase_GetValue U (upcast (mkVariantDerived v))
  = Throw (InputException typeMismatch "Variant::GetValue called with wrong type.").
Proof.
  intros Hne. unfold VariantBase_GetValue.
  by rewrite dynamic_cast_other.
Qed.

(** ** Allocation *)

Lemma new_VariantDerived_room (T : cpp_type) (v : value_of T) (h : store) :
  has_room h →
  new_VariantDerived T v h
  = Return (fresh (dom (objects h)),
            mkStore (<[fresh (dom (objects h)) := upcast (mkVariantDerived v)]> (objects h))
                    (capacity h)).
Proof.
  intros Hroom. unfold new_VariantDerived.
  destruct (decide (has_room h)); [ reflexivity | contradiction ].
Qed.

Lemma new_VariantDerived_full (T : cpp_type) (v : value_of T) (h : store) :
  ¬ has_room h → new_VariantDerived T v h = Throw std_bad_alloc.
Proof.
  intros Hfull. unfold new_VariantDerived.
  destruct (decide (has_room h)); [ contradiction | reflexivity ].
Qed.

Lemma fresh_is_free (h : store) : objects h !! fresh (dom (objects h)) = None.
Proof. apply not_elem_of_dom, is_fresh. Qed.

Lemma allocated_is_not_fresh (h : store) (p : positive) (b : VariantBase) :
  objects h !! p = Some b → p ≠ fresh (dom (objects h)).
Proof.
  intros Hp ->. rewrite fresh_is_free in Hp. discriminate.
Qed.

(** ** MakeVariant *)

Lemma MakeVariant_room (T : cpp_type) (v : value_of T) (h : store) :
  has_room h →
  ∃ p h', MakeVariant T v h = Return (mkVariant (typeid T) (Some p), h')
          ∧ objects h' !! p = Some (upcast (mkVariantDerived v))
          ∧ objects h !! p = None.
Proof.
  intros Hroom. unfold MakeVariant. rewrite new_VariantDerived_room by done.
  eexists _, _. split; [ reflexivity | ]. simpl.
  split; [ apply lookup_insert_eq | apply fresh_is_free ].
Qed.

Lemma MakeVariant_holds (T : cpp_type) (v : value_of T) (h h' : store) (this : Variant) :
  MakeVariant T v h = Return (this, h') → holds this h' T v.
Proof.
  unfold MakeVariant, new_VariantDerived.
  destruct (decide (has_room h)); [ | discriminate ].
  intros [= <- <-]. split; [ reflexivity | ]. simpl. apply lookup_insert_eq.
Qed.

Lemma MakeVariant_full (T : cpp_type) (v : value_of T) (h : store) :
  ¬ has_room h → MakeVariant T v h = Throw std_bad_alloc.
Proof.
  intros Hfull. unfold MakeVariant. by rewrite new_VariantDerived_full.
Qed.

(** ** GetValue and IsType on a Variant that holds a value *)

Lemma GetValue_holds_same (T : cpp_type) (v : value_of T) (this : Variant) (h : store) :
  holds this h T v → GetValue T this h = Return v.
Proof.
  intros [Hty Hval]. unfold GetValue. rewrite Hty, Hval.
  destruct (decide (typeid T ≠ typeid T)); [ congruence | ].
  apply VariantBase_GetValue_same.
Qed.

Lemma GetValue_other_type (U : cpp_type) (this : Variant) (h : store) :
  _type this ≠ typeid U →
  GetValue U this h = Throw (std_runtime_error "Bad variant access").
Proof.
  intros Hne. unfold GetValue.
  destruct (decide (typeid U ≠ _type this)) as [ | Heq ]; [ reflexivity | ].
  exfalso. apply Heq. congruence.
Qed.

Lemma IsType_true (U : cpp_type) (this : Variant) :
  IsType U this = true ↔ _type this = typeid U.
Proof.
  unfold IsType. rewrite bool_decide_eq_true. split; congruence.
Qed.

(** ** Assignment *)

Lemma assign_room (U : cpp_type) (w : value_of U) (this : Variant) (h : store) :
  has_room h →
  assign U w this h
  = (Return tt,
     mkVariant (typeid U) (Some (fresh (dom (objects h)))),
     unique_ptr_destroy (_value this)
       (mkStore (<[fresh (dom (objects h)) := upcast (mkVariantDerived w)]> (objects h))
                (capacity h))).
Proof.
  intros Hroom. unfold assign. by rewrite new_VariantDerived_room.
Qed.

Lemma assign_full (U : cpp_type) (w : value_of U) (this : Variant) (h : store) :
  ¬ has_room h →
  assign U w this h = (Throw std_bad_alloc, mkVariant (typeid U) (_value this), h).
Proof.
  intros Hfull. unfold assign. by rewrite new_VariantDerived_full.
Qed.

(** An assignment leaves every object alone that is neither the one the
    Variant owned nor absent from the store before. *)
Lemma assign_frame (U : cpp_type) (w : value_of U) (this : Variant) (h : store)
    (q : positive) (b : VariantBase) :
  objects h !! q = Some b →
  _value this ≠ Some q →
  objects (assign U w this h).2 !! q = Some b.
Proof.
  intros Hq Hown. unfold assign, new_VariantDerived.
  destruct (decide (has_room h)); simpl; [ | exact Hq ].
  pose proof (allocated_is_not_fresh h q b Hq) as Hfresh.
  destruct (_value this) as [p | ]; simpl.
  - rewrite lookup_delete_ne by congruence.
    by rewrite lookup_insert_ne.
  - by rewrite lookup_insert_ne.
Qed.

(** The assignment that completes: type and value are both the new ones,
    and the object held before is released. *)
Lemma assign_completes (T U : cpp_type) (v : value_of T) (w : value_of U)
    (this : Variant) (h : store) :
  holds this h T v →
  has_room h →
  ∃ this' h',
    assign U w this h = (Return tt, this', h')
    ∧ holds this' h' U w
    ∧ IsType U this' = true
    ∧ deref (_value this) h' = None
    ∧ (T ≠ U → GetValue T this' h' = Throw (std_runtime_error "Bad variant access")).
Proof.
  intros [Hty Hval] Hroom. rewrite assign_room by done.
  eexists _, _. split; [ reflexivity | ].
  destruct (_value this) as [p | ] eqn:Hp; simpl in Hval; [ | discriminate ].
  pose proof (allocated_is_not_fresh h p _ Hval) as Hfresh.
  repeat split; simpl.
  - rewrite lookup_delete_ne by done. apply lookup_insert_eq.
  - by apply IsType_true.
  - apply lookup_delete_eq.
  - intros Hne. apply GetValue_other_type. simpl. unfold typeid. congruence.
Qed.

(** ** Clone and destruction *)

Lemma Clone_room (T : cpp_type) (v : value_of T) (p : positive) (h : store) :
  objects h !! p = Some (upcast (mkVariantDerived v)) →
  has_room h →
  Clone p h
  = Return (Some (fresh (dom (objects h))),
            mkStore (<[fresh (dom (objects h)) := upcast (mkVariantDerived v)]> (objects h))
                    (capacity h)).
Proof.
  intros Hp Hroom. unfold Clone. simpl. rewrite Hp. simpl.
  by rewrite new_VariantDerived_room.
Qed.

Lemma destroy_frame (this : Variant) (h : store) (q : positive) (b : VariantBase) :
  objects h !! q = Some b →
  _value this ≠ Some q →
  objects (destroy this h) !! q = Some b.
Proof.
  intros Hq Hown. unfold destroy, unique_ptr_destroy.
  destruct (_value this) as [p | ]; simpl; [ | exact Hq ].
  by rewrite lookup_delete_ne by congruence.
Qed.

End VariantFacts.

Section VariantClaims.
Import utilities.

(** C1 (Variant round-trip).  For every type [T] and every value [v] of it,
    [GetValue<T>()] on the Variant that [MakeVariant<T>(v)] returned returns
    [v]; and [MakeVariant<T>(v)] does return a Variant whenever [new] has room
    for the held object. *)
Theorem MakeVariant_GetValue_roundtrip (T : cpp_type) (v : value_of T) (h : store) :
  (∀ this h', MakeVariant T v h = Return (this, h') → GetValue T this h' = Return v)
  ∧ (has_room h →
     ∃ this h', MakeVariant T v h = Return (this, h') ∧ GetValue T this h' = Return v).
Proof.
  assert (Hget : ∀ this h',
             MakeVariant T v h = Return (this, h') → GetValue T this h' = Return v).
  { intros this h' Hmk. apply GetValue_holds_same. by eapply MakeVariant_holds. }
  split; [ exact Hget | ].
  intros Hroom.
  destruct (MakeVariant_room T v h Hroom) as (p & h' & Hmk & _ & _).
  exists (mkVariant (typeid T) (Some p)), h'. split; [ exact Hmk | by apply Hget ].
Qed.

Lemma MakeVariant_GetValue_roundtrip_witness :
  has_room (mkStore ∅ 1)
  ∧ ∃ this h', MakeVariant t_int 42%Z (mkStore ∅ 1) = Return (this, h')
               ∧ GetValue t_int this h' = Return 42%Z.
Proof.
  assert (Hroom : has_room (mkStore ∅ 1)) by (unfold has_room; simpl; vm_compute; lia).
  split; [ exact Hroom | ].
  exact (proj2 (MakeVariant_GetValue_roundtrip t_int 42%Z (mkStore ∅ 1)) Hroom).
Defined.

(** C2 (Variant type safety).  For every value [v] of type [T] and every
    type [U] other than [T], [GetValue<U>()] on [MakeVariant<T>(v)] fails:
    it throws [std::runtime_error("Bad variant access")], raised by the
    comparison of type indices in [Variant::GetValue].  The
    [InputException] with code [typeMismatch] of [VariantBase::GetValue] is
    never reached on this path. *)
Theorem GetValue_wrong_type_throws_runtime_error
    (T U : cpp_type) (v : value_of T) (h h' : store) (this : Variant) :
  U ≠ T →
  MakeVariant T v h = Return (this, h') →
  GetValue U this h' = Throw (std_runtime_error "Bad variant access")
  ∧ GetValue U this h'
    ≠ Throw (InputException typeMismatch "Variant::GetValue called with wrong type.").
Proof.
  intros Hne Hmk. apply MakeVariant_holds in Hmk as [Hty _].
  rewrite GetValue_other_type by (rewrite Hty; unfold typeid; congruence).
  split; [ reflexivity | discriminate ].
Qed.

Lemma GetValue_wrong_type_throws_runtime_error_witness :
  t_double ≠ t_int
  ∧ MakeVariant t_int 3%Z (mkStore ∅ 1)
    = Return (mkVariant t_int (Some 1%positive),
              mkStore {[ 1%positive := upcast (mkVariantDerived (3%Z : value_of t_int)) ]} 1)
  ∧ GetValue t_double (mkVariant t_int (Some 1%positive))
      (mkStore {[ 1%positive := upcast (mkVariantDerived (3%Z : value_of t_int)) ]} 1)
    = Throw (std_runtime_error "Bad variant access").
Proof.
  assert (Hne : t_double ≠ t_int) by discriminate.
  assert (Hmk : MakeVariant t_int 3%Z (mkStore ∅ 1)
                = Return (mkVariant t_int (Some 1%positive),
                          mkStore {[ 1%positive := upcast (mkVariantDerived (3%Z : value_of t_int)) ]} 1))
    by (vm_compute; reflexivity).
  split; [ exact Hne | split; [ exact Hmk | ] ].
  exact (proj1 (GetValue_wrong_type_throws_runtime_error t_int t_double 3%Z _ _ _ Hne Hmk)).
Defined.

(** C3 (Variant reassignment).  Let a Variant hold a value [v] of type [T]
    and let [w] be a value of another type [U].  If the store has room, the
    assignment returns with type index and held value both replaced, the old
    object released, [IsType<U>()] true and [GetValue<T>()] failing.  If
    [new] throws, the exception leaves the assignment after the type index
    was overwritten and before the value was: [IsType<U>()] is true while
    the Variant still owns the [T] object, whose own [_type] is no longer
    the Variant's, and [GetValue<U>()] runs into the mismatch check of
    [VariantBase::GetValue]. *)
Theorem assign_replaces_type_before_value
    (T U : cpp_type) (v : value_of T) (w : value_of U) (this : Variant) (h : store) :
  holds this h T v →
  T ≠ U →
  (has_room h →
     ∃ this' h',
       assign U w this h = (Return tt, this', h')
       ∧ holds this' h' U w
       ∧ IsType U this' = true
       ∧ deref (_value this) h' = None
       ∧ GetValue T this' h' = Throw (std_runtime_error "Bad variant access"))
  ∧ (¬ has_room h →
     ∃ this',
       assign U w this h = (Throw std_bad_alloc, this', h)
       ∧ IsType U this' = true
       ∧ deref (_value this') h = Some (upcast (mkVariantDerived v))
       ∧ VariantBase_type (upcast (mkVariantDerived v)) ≠ _type this'
       ∧ GetValue T this' h = Throw (std_runtime_error "Bad variant access")
       ∧ GetValue U this' h
         = Throw (InputException typeMismatch "Variant::GetValue called with wrong type.")).
Proof.
  intros Hholds Hne. split.
  - intros Hroom.
    destruct (assign_completes T U v w this h Hholds Hroom)
      as (this' & h' & Hassign & Hnew & Hty & Hold & Hget).
    exists this', h'. repeat split; try done; try apply Hnew. by apply Hget.
  - intros Hfull. destruct Hholds as [Hty Hval].
    rewrite assign_full by done.
    eexists. split; [ reflexivity | ]. simpl. repeat split.
    + by apply IsType_true.
    + exact Hval.
    + exact Hne.
    + apply GetValue_other_type. simpl. unfold typeid. congruence.
    + unfold GetValue. simpl. rewrite Hval.
      destruct (decide (typeid U ≠ typeid U)); [ congruence | ].
      by apply VariantBase_GetValue_other.
Qed.

Lemma assign_replaces_type_before_value_witness :
  let this := mkVariant t_int (Some 1%positive) in
  let h := mkStore {[ 1%positive := upcast (mkVariantDerived (1%Z : value_of t_int)) ]} 1 in
  holds this h t_int 1%Z
  ∧ t_int ≠ t_double
  ∧ ¬ has_room h
  ∧ ∃ this',
      assign t_double 2.5%float this h = (Throw std_bad_alloc, this', h)
      ∧ IsType t_double this' = true
      ∧ deref (_value this') h = Some (upcast (mkVariantDerived (1%Z : value_of t_int)))
      ∧ VariantBase_type (upcast (mkVariantDerived (1%Z : value_of t_int))) ≠ _type this'
      ∧ GetValue t_int this' h = Throw (std_runtime_error "Bad variant access")
      ∧ GetValue t_double this' h
        = Throw (InputException typeMismatch "Variant::GetValue called with wrong type.").
Proof.
  intros this h.
  assert (Hholds : holds this h t_int 1%Z) by (split; reflexivity).
  assert (Hne : t_int ≠ t_double) by discriminate.
  assert (Hfull : ¬ has_room h) by (unfold has_room; vm_compute; lia).
  split; [ exact Hholds | split; [ exact Hne | split; [ exact Hfull | ] ] ].
  exact (proj2 (assign_replaces_type_before_value t_int t_double 1%Z 2.5%float this h
                  Hholds Hne) Hfull).
Defined.

(** C4 (Clone).  For a Variant that holds a value [v] of type [T] at the
    address [p], [Clone] on the held object, run in a store with room, returns
    the address [q] of a new object, other than [p], that holds [v] under the
    type [T]; the original still holds [v]; and the clone still holds [v]
    after the original is destroyed and after any value is assigned to the
    original. *)
Theorem Clone_is_independent_copy
    (T : cpp_type) (v : value_of T) (this : Variant) (p : positive) (h : store) :
  _value this = Some p →
  holds this h T v →
  has_room h →
  ∃ q h',
    Clone p h = Return (Some q, h')
    ∧ q ≠ p
    ∧ holds (mkVariant (_type this) (Some q)) h' T v
    ∧ holds this h' T v
    ∧ holds (mkVariant (_type this) (Some q)) (destroy this h') T v
    ∧ ∀ (U : cpp_type) (w : value_of U),
        holds (mkVariant (_type this) (Some q)) (assign U w this h').2 T v.
Proof.
  intros Hp [Hty Hval] Hroom. rewrite Hp in Hval. simpl in Hval.
  rewrite (Clone_room T v p h Hval Hroom).
  pose proof (allocated_is_not_fresh h p _ Hval) as Hfresh.
  set (q := fresh (dom (objects h))) in *.
  set (h' := mkStore (<[q := upcast (mkVariantDerived v)]> (objects h)) (capacity h)).
  assert (Hq : objects h' !! q = Some (upcast (mkVariantDerived v)))
    by apply lookup_insert_eq.
  assert (Hown : _value this ≠ Some q) by (rewrite Hp; congruence).
  exists q, h'. split; [ reflexivity | ].
  split; [ congruence | ].
  split; [ by split | ].
  split.
  { split; [ done | ]. rewrite Hp. simpl. by rewrite lookup_insert_ne. }
  split.
  { split; [ done | ]. simpl. by apply destroy_frame. }
  intros U w. split; [ done | ]. simpl. by apply assign_frame.
Qed.

Lemma Clone_is_independent_copy_witness :
  let this := mkVariant t_string (Some 1%positive) in
  let h := mkStore {[ 1%positive := upcast (mkVariantDerived ("abc" : value_of t_string)) ]} 2 in
  _value this = Some 1%positive
  ∧ holds this h t_string "abc"
  ∧ has_room h
  ∧ ∃ q h',
      Clone 1%positive h = Return (Some q, h')
      ∧ q ≠ 1%positive
      ∧ holds (mkVariant t_string (Some q)) h' t_string "abc"
      ∧ holds this h' t_string "abc"
      ∧ holds (mkVariant t_string (Some q)) (destroy this h') t_string "abc"
      ∧ ∀ (U : cpp_type) (w : value_of U),
          holds (mkVariant t_string (Some q)) (assign U w this h').2 t_string "abc".
Proof.
  intros this h.
  assert (Hp : _value this = Some 1%positive) by reflexivity.
  assert (Hholds : holds this h t_string "abc") by (split; reflexivity).
  assert (Hroom : has_room h) by (unfold has_room; vm_compute; lia).
  split; [ exact Hp | split; [ exact Hholds | split; [ exact Hroom | ] ] ].
  exact (Clone_is_independent_copy t_string "abc" this 1%positive h Hp Hholds Hroom).
Defined.

(** C10 (classification).  For every held object, [IsSerializable()] is
    true exactly when [IsPrimitiveType()] is false, so the two never agree;
    and an object that holds a pointer reports [IsPointer()] and
    [IsSerializable()] both true. *)
Theorem IsSerializable_complements_IsPrimitiveType :
  (∀ b : VariantBase,
      (IsSerializable b = true ↔ IsPrimitiveType b = false)
      ∧ IsSerializable b = negb (IsPrimitiveType b))
  ∧ (∀ b : VariantBase, IsPointer b = true → IsSerializable b = true)
  ∧ (∀ (P : cpp_type) (a : value_of (t_pointer P)),
        IsPointer (upcast (@mkVariantDerived (t_pointer P) a)) = true
        ∧ IsSerializable (upcast (@mkVariantDerived (t_pointer P) a)) = true
        ∧ IsPrimitiveType (upcast (@mkVariantDerived (t_pointer P) a)) = false).
Proof.
  split; [ | split ].
  - intros b. unfold IsSerializable. split; [ | reflexivity ].
    by destruct (IsPrimitiveType b).
  - intros [T d]. unfold IsPointer, IsSerializable, IsPrimitiveType. simpl.
    by destruct T.
  - intros P a. repeat split.
Qed.

End VariantClaims.

(* ===================================================================== *)
(** * Properties of ISerializable                                         *)
(* ===================================================================== *)

(** C7 (type name).  For the ISerializable kind the virtual member
    [GetRuntimeTypeName()] and the static member [GetTypeName()] return the
    same string, ["ISerializable"]; so does the virtual call on every object
    whose class does not override the member. *)
Theorem ISerializable_type_names_agree :
  ISerializable.GetRuntimeTypeName ISerializable.of_ISerializable_kind
  = ISerializable.GetTypeName
  ∧ ISerializable.GetTypeName = "ISerializable"
  ∧ ISerializable.GetRuntimeTypeName_body = "ISerializable"
  ∧ ∀ obj : ISerializable.object,
      ISerializable.GetRuntimeTypeName_override obj = None →
      ISerializable.GetRuntimeTypeName obj = ISerializable.GetTypeName.
Proof.
  repeat split.
  intros obj Hnone. unfold ISerializable.GetRuntimeTypeName. by rewrite Hnone.
Qed.

(* ===================================================================== *)
(** * Properties of LinearPredictor                                       *)
(* ===================================================================== *)

Section LinearPredictorInDouble.
Import utilities layers predictors.

(** C5 (prediction).  [Predict] returns the dot product of the data vector
    with the weights plus the bias, in [double] arithmetic; with weights
    [[2.0, -1.0]] and bias [0.5] the prediction for [[1.0, 1.0]] is exactly
    [1.5]. *)
Theorem Predict_is_dot_plus_bias :
  (∀ (p : LinearPredictor float) (x : list float),
      Predict p x = PrimFloat.add (Dot x (_w p)) (_b p))
  ∧ (∀ w1 w2 b x1 x2 : float,
      Predict (mkLinearPredictor [w1; w2] b) [x1; x2]
      = PrimFloat.add
          (PrimFloat.add (PrimFloat.add 0%float (PrimFloat.mul x1 w1)) (PrimFloat.mul x2 w2))
          b)
  ∧ Predict (mkLinearPredictor [2.0; -1.0] 0.5)%float [1.0; 1.0]%float = 1.5%float.
Proof. repeat split. Qed.


End LinearPredictorInDouble.

Section LinearPredictorGeneric.
Import utilities layers predictors.
Context {R : Type} `{Arithmetic R}.



(** ** AddToModel *)

Lemma AddLayer_valid (model : Model R) (layer : Layer R) :
  Forall (λ c, c.1 < NumLayers model) (GetInputCoordinates layer) →
  AddLayer model layer
  = Return (BuildCoordinateList (NumLayers model) (GetOutputDimension layer),
            mkModel (_layers model ++ [layer])).
Proof.
  intros Hvalid. unfold AddLayer.
  replace (forallb _ _) with true; [ reflexivity | ].
  symmetry. apply forallb_forall. intros c Hc.
  apply Nat.ltb_lt. rewrite Forall_forall in Hvalid. apply Hvalid.
  by apply list_elem_of_In.
Qed.

Lemma BuildCoordinateList_layer (layerIndex size : nat) :
  Forall (λ c, c.1 = layerIndex) (BuildCoordinateList layerIndex size).
Proof.
  unfold BuildCoordinateList. apply Forall_forall. intros c Hc.
  apply list_elem_of_In, in_map_iff in Hc as (i & <- & _). reflexivity.
Qed.

(** On any model and any input coordinates that refer to layers of the
    model, [AddToModel] appends the three layers and returns the one
    coordinate of the last. *)
Lemma AddToModel_appends (p : LinearPredictor R) (model : Model R)
    (inputCoordinates : CoordinateList) :
  Forall (λ c, c.1 < NumLayers model) inputCoordinates →
  AddToModel p model inputCoordinates
  = Return ([(NumLayers model + 2, 0)],
            mkModel (_layers model ++
              [ Coordinatewise (_w p) inputCoordinates multiply;
                Sum (BuildCoordinateList (NumLayers model) (length inputCoordinates));
                Coordinatewise [_b p] [(NumLayers model + 1, 0)] add ])).
Proof.
  intros Hvalid. unfold AddToModel.
  rewrite AddLayer_valid by exact Hvalid. simpl GetOutputDimension.
  set (n := NumLayers model).
  assert (Hn1 : NumLayers (mkModel (_layers model ++
            [Coordinatewise (_w p) inputCoordinates multiply])) = n + 1).
  { unfold NumLayers, n. simpl. rewrite length_app. simpl. lia. }
  rewrite AddLayer_valid; last first.
  { rewrite Hn1. simpl.
    eapply Forall_impl; [ apply BuildCoordinateList_layer | ].
    intros c Hc. simpl in Hc. unfold n, NumLayers in *. lia. }
  rewrite Hn1. simpl.
  rewrite AddLayer_valid; last first.
  { simpl. constructor; [ | constructor ]. unfold NumLayers. simpl.
    rewrite !length_app. simpl. unfold n, NumLayers. lia. }
  unfold NumLayers. simpl. rewrite !length_app. simpl.
  rewrite <- !app_assoc. simpl.
  unfold Coordinatewise1, BuildCoordinateList, n, NumLayers. simpl.
  do 4 f_equal; lia.
Qed.

(** C6 (lowering).  On the empty model and two input coordinates that
    refer to the model's input, [AddToModel] returns a model of exactly three
    layers - the multiply layer with the weights over the input coordinates,
    the sum layer over the two outputs of the multiply layer, the add layer
    with the bias over the output of the sum layer - and the coordinate list
    of the add layer, which is its one output. *)
Theorem AddToModel_on_empty_model (p : LinearPredictor R) (c1 c2 : Coordinate) :
  c1.1 = 0 →
  c2.1 = 0 →
  ∃ model',
    AddToModel p empty_Model [c1; c2] = Return ([(3, 0)], model')
    ∧ _layers model'
      = [ Coordinatewise (_w p) [c1; c2] multiply;
          Sum [(1, 0); (1, 1)];
          Coordinatewise1 (_b p) (2, 0) add ]
    ∧ length (_layers model') = length (_layers (@empty_Model R)) + 3
    ∧ AddLayer (mkModel (removelast (_layers model'))) (Coordinatewise1 (_b p) (2, 0) add)
      = Return ([(3, 0)], model').
Proof.
  intros H1 H2.
  eexists. split.
  - apply AddToModel_appends.
    constructor; [ | constructor; [ | constructor ] ]; unfold NumLayers; simpl; lia.
  - simpl. repeat split.
Qed.

End LinearPredictorGeneric.

Section LinearPredictorWitnesses.
Import utilities layers predictors.


Lemma AddToModel_on_empty_model_witness :
  (0, 0).1 = 0
  ∧ (0, 1).1 = 0
  ∧ ∃ model',
      AddToModel (mkLinearPredictor [2.0; -1.0] 0.5)%float empty_Model [(0, 0); (0, 1)]
      = Return ([(3, 0)], model')
      ∧ _layers model'
        = [ Coordinatewise [2.0; -1.0]%float [(0, 0); (0, 1)] multiply;
            Sum [(1, 0); (1, 1)];
            Coordinatewise1 0.5%float (2, 0) add ]
      ∧ length (_layers model') = length (_layers (@empty_Model float)) + 3
      ∧ AddLayer (mkModel (removelast (_layers model'))) (Coordinatewise1 0.5%float (2, 0) add)
        = Return ([(3, 0)], model').
Proof.
  split; [ reflexivity | split; [ reflexivity | ] ].
  exact (AddToModel_on_empty_model (mkLinearPredictor [2.0; -1.0] 0.5)%float
           (0, 0) (0, 1) eq_refl eq_refl).
Defined.

(** The concrete scenario, evaluated: the three layers that [AddToModel]
    appends compute, on the input [[1.0, 1.0]], the products [[2.0, -1.0]],
    their sum [1.0] and the prediction [1.5] at the returned coordinate. *)
Lemma AddToModel_scenario_evaluates :
  ∃ model',
    AddToModel (mkLinearPredictor [2.0; -1.0] 0.5)%float empty_Model [(0, 0); (0, 1)]
    = Return ([(3, 0)], model')
    ∧ Evaluate model' [1.0; 1.0]%float
      = [ [1.0; 1.0]; [2.0; -1.0]; [1.0]; [1.5] ]%float
    ∧ element (Evaluate model' [1.0; 1.0]%float) (3, 0)
      = Predict (mkLinearPredictor [2.0; -1.0] 0.5)%float [1.0; 1.0]%float.
Proof. eexists. repeat split. Qed.

End LinearPredictorWitnesses.

(* ===================================================================== *)
(** * Properties of the forestTrainer driver                              *)
(* ===================================================================== *)

Section DriverFacts.
Import utilities forestTrainer.



(** Unfolds the statements of the [try] block and decides the tests. *)
Ltac run_try_block :=
  unfold try_block, bind, call, when, print, ret, throw; simpl;
  repeat match goal with
         | H : _ = _ |- _ => rewrite H; simpl
         | |- context [ if ?b then _ else _ ] => destruct b; simpl
         end.

(** An exception of the map loader leaves the [try] block. *)
Lemma loading_error_leaves_try_block (env : Collaborators) (e : exception) :
  Parse env = Return tt →
  LoadMap env = Throw e →
  ∃ out, try_block env [] = (Throw e, out).
Proof. intros HParse HLoad. run_try_block; eauto. Qed.

(** At most the statements of [main] before the handlers write, and only
    to [cout]. *)
Lemma try_block_writes_to_cout (env : Collaborators) :
  Forall (λ line, line.1 = cout) (try_block env []).2.
Proof.
  unfold try_block, bind, call, when, print, ret, throw; simpl.
  repeat match goal with
         | |- context [ if ?b then _ else _ ] => destruct b; simpl
         | |- context [ match ?o with Return _ => _ | Throw _ => _ | Undefined => _ end ] =>
             destruct o; simpl
         | |- Forall _ _ => by repeat constructor
         end.
Qed.

(** An exception of the training step leaves the [try] block. *)
Lemma training_error_leaves_try_block (env : Collaborators) (e : exception) :
  returns_until_Update env →
  Update env = Throw e →
  ∃ out, try_block env [] = (Throw e, out).
Proof.
  intros (HParse & HLoad & Hdim & HInput & HData & HTrainer & HEval & HMulti & HRng & HPerm)
         HUpdate.
  destruct Hdim as [Hfile | Hdim].
  - run_try_block; eauto.
  - apply N.eqb_neq in Hdim. run_try_block; eauto.
Qed.

(** An exception of saving the model leaves the [try] block. *)
Lemma saving_error_leaves_try_block (env : Collaborators) (e : exception) :
  returns_until_Update env →
  Update env = Return tt →
  GetPredictor env = Return tt →
  outputModelFilename env ≠ "" →
  SaveModel env = Throw e →
  ∃ out, try_block env [] = (Throw e, out).
Proof.
  intros (HParse & HLoad & Hdim & HInput & HData & HTrainer & HEval & HMulti & HRng & HPerm)
         HUpdate HPredictor Hname HSave.
  assert (Hsave : bool_decide (outputModelFilename env ≠ "") = true)
    by (by apply bool_decide_eq_true).
  destruct Hdim as [Hfile | Hdim].
  - run_try_block; eauto.
  - apply N.eqb_neq in Hdim. run_try_block; eauto.
Qed.






End DriverFacts.

(* ===================================================================== *)
(** * Further properties of Variant                                       *)
(* ===================================================================== *)

Section VariantRetrieval.
Import utilities.

Lemma VariantBase_GetValue_defined (U : cpp_type) (b : VariantBase) :
  VariantBase_GetValue U b ≠ Undefined.
Proof. unfold VariantBase_GetValue. by destruct (dynamic_cast U b). Qed.

(** X1 (checked downcast).  [VariantBase::GetValue<U>] on an object whose
    dynamic type is [VariantDerived<T>] returns the held value when [U] is
    [T], and throws the [InputException] with code [typeMismatch] when it is
    not; it never dereferences the null result of the cast. *)
Theorem VariantBase_GetValue_checked (T U : cpp_type) (v : value_of T) :
  (∀ e : T = U,
      VariantBase_GetValue U (upcast (mkVariantDerived v))
      = Return (eq_rect T value_of v U e))
  ∧ (T ≠ U →
     VariantBase_GetValue U (upcast (mkVariantDerived v))
     = Throw (InputException typeMismatch "Variant::GetValue called with wrong type."))
  ∧ VariantBase_GetValue U (upcast (mkVariantDerived v)) ≠ Undefined.
Proof.
  split; [ | split ].
  - intros e. destruct e. simpl. apply VariantBase_GetValue_same.
  - apply VariantBase_GetValue_other.
  - apply VariantBase_GetValue_defined.
Qed.

(** X2 (IsType predicts GetValue).  On a Variant whose object was built at
    a type [T] without reference or cv-qualifier (by [MakeVariant<T>] or by
    the assignment of an rvalue of type [T]) and whose type index is [T]'s,
    and for every such type [U]: [IsType<U>()] is true exactly when
    [GetValue<U>()] returns; when it is false [GetValue<U>()] throws
    [std::runtime_error].  No other outcome occurs for these: neither the
    [InputException] of the inner check nor undefined behaviour. *)
Theorem IsType_predicts_GetValue
    (T U : cpp_type) (v : value_of T) (this : Variant) (h : store) :
  holds this h T v →
  (IsType U this = true ∧ ∃ u, GetValue U this h = Return u)
  ∨ (IsType U this = false
     ∧ GetValue U this h = Throw (std_runtime_error "Bad variant access")).
Proof.
  intros Hholds. destruct (decide (T = U)) as [<- | Hne].
  - left. split.
    + apply IsType_true, Hholds.
    + exists v. by apply GetValue_holds_same.
  - right. destruct Hholds as [Hty Hval]. split.
    + apply not_true_is_false. rewrite IsType_true, Hty. unfold typeid. congruence.
    + apply GetValue_other_type. rewrite Hty. unfold typeid. congruence.
Qed.

Lemma IsType_predicts_GetValue_witness :
  let this := mkVariant t_bool (Some 3%positive) in
  let h := mkStore {[ 3%positive := upcast (mkVariantDerived (true : value_of t_bool)) ]} 4 in
  holds this h t_bool true
  ∧ ((IsType t_string this = true ∧ ∃ u, GetValue t_string this h = Return u)
     ∨ (IsType t_string this = false
        ∧ GetValue t_string this h = Throw (std_runtime_error "Bad variant access"))).
Proof.
  intros this h.
  assert (Hholds : holds this h t_bool true) by (split; reflexivity).
  split; [ exact Hholds | ].
  exact (IsType_predicts_GetValue t_bool t_string true this h Hholds).
Defined.

(** X3 (where GetValue is undefined).  [Variant::GetValue<U>] compares the
    type indices before it touches [_value]: its behaviour is undefined
    exactly when the stored type index is [U]'s and the pointer is null or
    dangling.  With any other stored type index it throws
    [std::runtime_error], whatever the pointer is; with [U]'s type index and
    a pointer to an object it does what [VariantBase::GetValue<U>] does on
    that object, which is never that [std::runtime_error]. *)
Theorem GetValue_Undefined_iff (U : cpp_type) (this : Variant) (h : store) :
  (GetValue U this h = Undefined
   ↔ _type this = typeid U ∧ deref (_value this) h = None)
  ∧ (_type this ≠ typeid U →
     GetValue U this h = Throw (std_runtime_error "Bad variant access"))
  ∧ (_type this = typeid U →
     ∀ b, deref (_value this) h = Some b →
          GetValue U this h = VariantBase_GetValue U b
          ∧ GetValue U this h ≠ Throw (std_runtime_error "Bad variant access")).
Proof.
  split; [ | split ].
  - unfold GetValue.
    destruct (decide (typeid U ≠ _type this)) as [Hne | Heq].
    + split; [ discriminate | ]. intros [Hty _]. congruence.
    + apply dec_stable in Heq.
      destruct (deref (_value this) h) as [b | ] eqn:Hd.
      * split; [ | intros [_ ?]; discriminate ].
        intros Hget. by apply VariantBase_GetValue_defined in Hget.
      * split; [ by intros | reflexivity ].
  - apply GetValue_other_type.
  - intros Hty b Hb. unfold GetValue. rewrite Hb.
    destruct (decide (typeid U ≠ _type this)) as [Hne | _]; [ congruence | ].
    split; [ reflexivity | ].
    unfold VariantBase_GetValue. by destruct (dynamic_cast U b).
Qed.

End VariantRetrieval.

Section VariantStore.
Import utilities.

Lemma owns_valid_not_fresh (this : Variant) (h : store) :
  owns_valid this h → _value this ≠ Some (fresh (dom (objects h))).
Proof.
  unfold owns_valid. intros Hown Hp. rewrite Hp in Hown.
  rewrite fresh_is_free in Hown. by destruct Hown.
Qed.

(** X4 (assign an rvalue, then get).  An assignment [variant = w] of an
    rvalue [w] of a type [U] without cv-qualifier (so that [ValueType] is
    deduced as [U]) to a Variant whose pointer is null or owns an object, in a
    store with room, returns; after it [IsType<U>()] is true and
    [GetValue<U>()] returns [w], whatever the Variant held before and also
    when [U] is the type it held. *)
Theorem assign_then_GetValue
    (U : cpp_type) (w : value_of U) (this : Variant) (h : store) :
  owns_valid this h →
  has_room h →
  ∃ this' h',
    assign U w this h = (Return tt, this', h')
    ∧ IsType U this' = true
    ∧ GetValue U this' h' = Return w
    ∧ owns_valid this' h'.
Proof.
  intros Hown Hroom. rewrite assign_room by done.
  pose proof (owns_valid_not_fresh this h Hown) as Hfresh.
  set (q := fresh (dom (objects h))) in *.
  eexists _, _. split; [ reflexivity | ].
  assert (Hq : deref (Some q)
                 (unique_ptr_destroy (_value this)
                    (mkStore (<[q := upcast (mkVariantDerived w)]> (objects h)) (capacity h)))
               = Some (upcast (mkVariantDerived w))).
  { destruct (_value this) as [p | ]; simpl.
    - rewrite lookup_delete_ne by congruence. apply lookup_insert_eq.
    - apply lookup_insert_eq. }
  split; [ by apply IsType_true | ].
  split.
  - apply GetValue_holds_same. by split.
  - unfold owns_valid. simpl in *. rewrite Hq. by eexists.
Qed.

Lemma assign_then_GetValue_witness :
  let this := mkVariant t_int None in
  let h := mkStore ∅ 1 in
  owns_valid this h
  ∧ has_room h
  ∧ ∃ this' h',
      assign t_string "abc" this h = (Return tt, this', h')
      ∧ IsType t_string this' = true
      ∧ GetValue t_string this' h' = Return "abc"
      ∧ owns_valid this' h'.
Proof.
  intros this h.
  assert (Hown : owns_valid this h) by exact I.
  assert (Hroom : has_room h) by (unfold has_room; vm_compute; lia).
  split; [ exact Hown | split; [ exact Hroom | ] ].
  exact (assign_then_GetValue t_string "abc" this h Hown Hroom).
Defined.

(** X5 (no leak in assignment).  A completed assignment to a Variant that
    holds a value frees the object held before and allocates one: the store
    holds as many objects after it as before, and the old address is free. *)
Theorem assign_keeps_store_size
    (T U : cpp_type) (v : value_of T) (w : value_of U)
    (this : Variant) (p : positive) (h : store) :
  _value this = Some p →
  holds this h T v →
  has_room h →
  ∃ this' h',
    assign U w this h = (Return tt, this', h')
    ∧ size (objects h') = size (objects h)
    ∧ objects h' !! p = None
    ∧ capacity h' = capacity h.
Proof.
  intros Hp [_ Hval] Hroom. rewrite assign_room by done.
  rewrite Hp in *. simpl in Hval.
  pose proof (allocated_is_not_fresh h p _ Hval) as Hfresh.
  eexists _, _. split; [ reflexivity | ]. simpl. repeat split.
  - rewrite map_size_delete_Some by (rewrite lookup_insert_ne by done; eauto).
    by rewrite map_size_insert_None by apply fresh_is_free.
  - apply lookup_delete_eq.
Qed.

Lemma assign_keeps_store_size_witness :
  let this := mkVariant t_int (Some 1%positive) in
  let h := mkStore {[ 1%positive := upcast (mkVariantDerived (7%Z : value_of t_int)) ]} 2 in
  _value this = Some 1%positive
  ∧ holds this h t_int 7%Z
  ∧ has_room h
  ∧ ∃ this' h',
      assign t_double 2.5%float this h = (Return tt, this', h')
      ∧ size (objects h') = size (objects h)
      ∧ objects h' !! 1%positive = None
      ∧ capacity h' = capacity h.
Proof.
  intros this h.
  assert (Hp : _value this = Some 1%positive) by reflexivity.
  assert (Hholds : holds this h t_int 7%Z) by (split; reflexivity).
  assert (Hroom : has_room h) by (unfold has_room; vm_compute; lia).
  split; [ exact Hp | split; [ exact Hholds | split; [ exact Hroom | ] ] ].
  exact (assign_keeps_store_size t_int t_double 7%Z 2.5%float this 1%positive h
           Hp Hholds Hroom).
Defined.

(** X6 (construct, then destroy).  [MakeVariant] in a store with room
    followed by the destructor of the Variant leaves the store as it was
    before: the one object that was allocated is deleted again. *)
Theorem MakeVariant_destroy_restores_store (T : cpp_type) (v : value_of T) (h : store) :
  has_room h →
  ∃ this h',
    MakeVariant T v h = Return (this, h')
    ∧ size (objects h') = S (size (objects h))
    ∧ destroy this h' = h.
Proof.
  intros Hroom. unfold MakeVariant. rewrite new_VariantDerived_room by done.
  eexists _, _. split; [ reflexivity | ]. simpl. split.
  - apply map_size_insert_None, fresh_is_free.
  - unfold destroy. simpl. rewrite delete_insert_id by apply fresh_is_free.
    by destruct h.
Qed.

Lemma MakeVariant_destroy_restores_store_witness :
  let h := mkStore {[ 1%positive := upcast (mkVariantDerived (7%Z : value_of t_int)) ]} 3 in
  has_room h
  ∧ ∃ this h',
      MakeVariant (t_vector t_int) [1; 2]%Z h = Return (this, h')
      ∧ size (objects h') = S (size (objects h))
      ∧ destroy this h' = h.
Proof.
  intros h.
  assert (Hroom : has_room h) by (unfold has_room; vm_compute; lia).
  split; [ exact Hroom | ].
  exact (MakeVariant_destroy_restores_store (t_vector t_int) [1; 2]%Z h Hroom).
Defined.

(** X7 (the three outcomes of Clone).  [Clone] called through a dangling
    pointer is undefined; called on an object in a full store it throws
    [std::bad_alloc]; otherwise it returns a pointer that was free before, and
    the store has one object more, the copy, with the type and value of the
    original. *)
Theorem Clone_outcomes (this : positive) (h : store) :
  (objects h !! this = None → Clone this h = Undefined)
  ∧ (is_Some (objects h !! this) → ¬ has_room h → Clone this h = Throw std_bad_alloc)
  ∧ (∀ b, objects h !! this = Some b → has_room h →
       ∃ q h',
         Clone this h = Return (Some q, h')
         ∧ objects h !! q = None
         ∧ objects h' !! q = Some b
         ∧ objects h' !! this = Some b
         ∧ size (objects h') = S (size (objects h))).
Proof.
  unfold Clone. simpl. split; [ | split ].
  - by intros ->.
  - intros [b ->] Hfull. by rewrite new_VariantDerived_full.
  - intros b Hb Hroom. rewrite Hb, new_VariantDerived_room by done.
    pose proof (allocated_is_not_fresh h this b Hb) as Hfresh.
    eexists _, _. split; [ reflexivity | ]. simpl.
    split; [ apply fresh_is_free | ].
    split; [ rewrite lookup_insert_eq; by destruct b as [T [v]] | ].
    split; [ by rewrite lookup_insert_ne | ].
    apply map_size_insert_None, fresh_is_free.
Qed.

(** X8 (assignment and other Variants).  When two Variants own different
    objects, an assignment to one of them, whether it returns or throws,
    leaves the other holding its value. *)
Theorem assign_leaves_other_Variant
    (T U : cpp_type) (v : value_of T) (w : value_of U)
    (this other : Variant) (h : store) :
  _value this ≠ _value other →
  holds other h T v →
  holds other (assign U w this h).2 T v.
Proof.
  intros Hdiff [Hty Hval]. split; [ exact Hty | ].
  destruct (_value other) as [q | ] eqn:Hq; simpl in *; [ | discriminate ].
  by apply assign_frame.
Qed.

Lemma assign_leaves_other_Variant_witness :
  let this := mkVariant t_int (Some 1%positive) in
  let other := mkVariant t_string (Some 2%positive) in
  let h := mkStore (<[ 1%positive := upcast (mkVariantDerived (7%Z : value_of t_int)) ]>
                      {[ 2%positive := upcast (mkVariantDerived ("abc" : value_of t_string)) ]})
                   3 in
  _value this ≠ _value other
  ∧ holds other h t_string "abc"
  ∧ holds other (assign t_bool true this h).2 t_string "abc".
Proof.
  intros this other h.
  assert (Hdiff : _value this ≠ _value other) by discriminate.
  assert (Hholds : holds other h t_string "abc") by (split; reflexivity).
  split; [ exact Hdiff | split; [ exact Hholds | ] ].
  exact (assign_leaves_other_Variant t_string t_bool "abc" true this other h Hdiff Hholds).
Defined.

End VariantStore.

(* ===================================================================== *)
(** * Further properties of LinearPredictor                               *)
(* ===================================================================== *)

Section LinearPredictorLowering.
Import utilities layers predictors.
Context {R : Type} `{Arithmetic R}.

(** X9 (lowering onto any model).  On every model and for every list of
    input coordinates that refer to layers of the model, [AddToModel]
    returns: the layers that were there stay in place, exactly three are
    appended after them, and the one coordinate that is returned is the
    output of the last layer, so it can be the input of a further layer. *)
Theorem AddToModel_on_any_model (p : LinearPredictor R) (model : Model R)
    (inputCoordinates : CoordinateList) :
  Forall (λ c, c.1 < NumLayers model) inputCoordinates →
  ∃ model',
    AddToModel p model inputCoordinates = Return ([(NumLayers model' - 1, 0)], model')
    ∧ _layers model'
      = _layers model ++
        [ Coordinatewise (_w p) inputCoordinates multiply;
          Sum (BuildCoordinateList (NumLayers model) (length inputCoordinates));
          Coordinatewise1 (_b p) (NumLayers model + 1, 0) add ]
    ∧ NumLayers model' = NumLayers model + 3
    ∧ Forall (λ c, c.1 < NumLayers model') [(NumLayers model' - 1, 0)].
Proof.
  intros Hvalid. rewrite (AddToModel_appends p model inputCoordinates Hvalid).
  exists (mkModel (_layers model ++
            [ Coordinatewise (_w p) inputCoordinates multiply;
              Sum (BuildCoordinateList (NumLayers model) (length inputCoordinates));
              Coordinatewise [_b p] [(NumLayers model + 1, 0)] add ])).
  split; [ | split; [ reflexivity | split ] ].
  - do 4 f_equal. unfold NumLayers. simpl. rewrite length_app. simpl. lia.
  - unfold NumLayers. simpl. rewrite length_app. simpl. lia.
  - constructor; [ | constructor ]. unfold NumLayers. simpl.
    rewrite length_app. simpl. lia.
Qed.

Lemma map_nth_seq (x : list R) (d : R) :
  map (λ i, nth i x d) (seq 0 (length x)) = x.
Proof.
  induction x as [ | a x IH ]; [ reflexivity | ].
  simpl. f_equal. rewrite <- seq_shift, map_map. exact IH.
Qed.

Lemma map_combine_map {A B C : Type} (F : R → B → C) (K : A → B) (w : list R) :
  ∀ l : list A,
    map (λ vc, F vc.1 (K vc.2)) (combine w l)
    = map (λ wx, F wx.1 wx.2) (combine w (map K l)).
Proof.
  induction w as [ | a w IH ]; intros l; [ reflexivity | ].
  destruct l as [ | i l ]; [ reflexivity | ]. simpl. by rewrite IH.
Qed.

Lemma fold_left_map_acc {A B : Type} (F : R → B → R) (K : A → B) (l : list A) :
  ∀ acc : R,
    fold_left (λ a c, F a (K c)) l acc = fold_left F (map K l) acc.
Proof.
  induction l as [ | c l IH ]; intros acc; [ reflexivity | ]. simpl. apply IH.
Qed.

Lemma Dot_commutes (x w : list R) :
  (∀ a b : R, times a b = times b a) → Dot x w = Dot w x.
Proof.
  intros Hcomm. unfold Dot. generalize (zero : R).
  revert w. induction x as [ | a x IH ]; intros w acc.
  - by destruct w.
  - destruct w as [ | b w ]; [ reflexivity | ]. simpl.
    rewrite (Hcomm a b). apply IH.
Qed.

(** X10 (the lowered graph computes the prediction).  For a predictor with
    as many weights as the input has entries, the three layers that
    [AddToModel] appends to the empty model over the coordinates of the input
    evaluate, at the returned coordinate, to the bias plus the dot product of
    the weights with the input, in the arithmetic of the code; where addition
    and multiplication commute this is the value of [Predict]. *)
Theorem AddToModel_computes_prediction (p : LinearPredictor R) (x : list R) :
  length (_w p) = length x →
  ∃ model',
    AddToModel p empty_Model (BuildCoordinateList 0 (length x)) = Return ([(3, 0)], model')
    ∧ element (Evaluate model' x) (3, 0) = plus (_b p) (Dot (_w p) x)
    ∧ ((∀ a b : R, plus a b = plus b a) →
       (∀ a b : R, times a b = times b a) →
       element (Evaluate model' x) (3, 0) = Predict p x).
Proof.
  intros Hlen.
  assert (Hvalid : Forall (λ c : Coordinate, c.1 < NumLayers (@empty_Model R))
                     (BuildCoordinateList 0 (length x))).
  { eapply Forall_impl; [ apply BuildCoordinateList_layer | ].
    intros c Hc. simpl in Hc. unfold NumLayers. simpl. lia. }
  rewrite (AddToModel_appends p empty_Model _ Hvalid).
  eexists. split; [ reflexivity | ].
  assert (Hvalue : element (Evaluate (mkModel
            ([] ++ [ Coordinatewise (_w p) (BuildCoordinateList 0 (length x)) multiply;
                     Sum (BuildCoordinateList (NumLayers (@empty_Model R))
                            (length (BuildCoordinateList 0 (length x))));
                     Coordinatewise [_b p] [(NumLayers (@empty_Model R) + 1, 0)] add ])) x)
            (3, 0) = plus (_b p) (Dot (_w p) x)).
  { set (o1 := map (λ wx : R * R, times wx.1 wx.2) (combine (_w p) x)).
    assert (Ho1 : map (λ vc : R * Coordinate, times vc.1 (element [x] vc.2))
                    (combine (_w p) (map (λ i, (0, i)) (seq 0 (length x))))
                  = o1).
    { rewrite (map_combine_map (λ a b, times a b) (λ c : Coordinate, element [x] c)).
      rewrite map_map.
      change (map (λ i, element [x] (0, i)) (seq 0 (length x)))
        with (map (λ i, nth i x zero) (seq 0 (length x))).
      by rewrite map_nth_seq. }
    assert (Hlen1 : length o1 = length x).
    { unfold o1. rewrite length_map, length_combine. lia. }
    transitivity
      (plus (_b p)
         (fold_left
            (λ acc c,
               plus acc
                 (element
                    [x; map (λ vc : R * Coordinate, times vc.1 (element [x] vc.2))
                          (combine (_w p) (map (λ i, (0, i)) (seq 0 (length x))))]
                    c))
            (map (λ i, (1, i))
               (seq 0 (length (map (λ i : nat, (0, i)) (seq 0 (length x))))))
            zero));
      [ reflexivity | ].
    rewrite Ho1, length_map, length_seq.
    f_equal.
    rewrite <- (fold_left_map_acc (λ acc c, plus acc (element [x; o1] c)) (λ i, (1, i))).
    change (fold_left (λ a i, plus a (nth i o1 zero)) (seq 0 (length x)) zero
            = Dot (_w p) x).
    rewrite (fold_left_map_acc (λ a e, plus a e) (λ i, nth i o1 zero)).
    rewrite <- Hlen1, map_nth_seq. unfold o1, Dot.
    symmetry.
    apply (fold_left_map_acc (λ a e, plus a e) (λ wx : R * R, times wx.1 wx.2)). }
  split; [ exact Hvalue | ].
  intros Hplus Htimes. etransitivity; [ exact Hvalue | ]. unfold Predict.
  by rewrite Hplus, (Dot_commutes (_w p) x Htimes).
Qed.

End LinearPredictorLowering.

Section LinearPredictorLoweringWitnesses.
Import utilities layers predictors.

Lemma AddToModel_on_any_model_witness :
  let model := mkModel [ Sum [(0, 0); (0, 1)] ] in
  Forall (λ c : Coordinate, c.1 < NumLayers model) [(1, 0); (0, 1)]
  ∧ ∃ model',
      AddToModel (mkLinearPredictor [2.0; -1.0] 0.5)%float model [(1, 0); (0, 1)]
      = Return ([(NumLayers model' - 1, 0)], model')
      ∧ _layers model'
        = _layers model ++
          [ Coordinatewise [2.0; -1.0]%float [(1, 0); (0, 1)] multiply;
            Sum (BuildCoordinateList (NumLayers model) 2);
            Coordinatewise1 0.5%float (NumLayers model + 1, 0) add ]
      ∧ NumLayers model' = NumLayers model + 3
      ∧ Forall (λ c : Coordinate, c.1 < NumLayers model') [(NumLayers model' - 1, 0)].
Proof.
  intros model.
  assert (Hvalid : Forall (λ c : Coordinate, c.1 < NumLayers model) [(1, 0); (0, 1)]).
  { repeat constructor. }
  split; [ exact Hvalid | ].
  exact (AddToModel_on_any_model (mkLinearPredictor [2.0; -1.0] 0.5)%float model
           [(1, 0); (0, 1)] Hvalid).
Defined.

Lemma AddToModel_computes_prediction_witness :
  let p := (mkLinearPredictor [2.0; -1.0] 0.5)%float in
  let x := [1.0; 1.0]%float in
  length (_w p) = length x
  ∧ ∃ model',
      AddToModel p empty_Model (BuildCoordinateList 0 (length x)) = Return ([(3, 0)], model')
      ∧ element (Evaluate model' x) (3, 0) = plus (_b p) (Dot (_w p) x)
      ∧ ((∀ a b : float, plus a b = plus b a) →
         (∀ a b : float, times a b = times b a) →
         element (Evaluate model' x) (3, 0) = Predict p x).
Proof.
  intros p x.
  split; [ reflexivity | ].
  exact (AddToModel_computes_prediction p x eq_refl).
Defined.

End LinearPredictorLoweringWitnesses.

(* ===================================================================== *)
(** * Further properties of the forestTrainer driver                      *)
(* ===================================================================== *)

Section DriverRuns.
Import utilities forestTrainer.

(** Unfolds the statements of [main] and rewrites with what is known of the
    collaborators. *)
Ltac run_main :=
  unfold main, try_block, bind, call, when, print, ret, throw; simpl;
  repeat match goal with
         | H : _ = _ |- _ => rewrite H; simpl
         end.

(** X12 (a run that completes).  When every collaborator that [main]
    gets to call returns, [main] returns 0 and writes nothing to [cerr].  The
    input node, the evaluator and the saving of the model are only required
    to return where [main] calls them: without an input map, in verbose mode
    and with a file name that is not empty. *)
Theorem main_returns_0 (env : Collaborators) :
  runs_to_completion env →
  (main env).1 = returns 0 ∧ Forall (λ line, line.1 = cout) (main env).2.
Proof.
  intros (HP & HL & Hin & HD & HT & HE & HM & HR & HPerm & HU & HG & HS).
  assert (Htry : (try_block env []).1 = Return tt).
  { destruct (HasInputFile env) eqn:Hfile.
    - destruct (verbose env) eqn:Hverbose; [ specialize (HE eq_refl) | ];
        (destruct (bool_decide (outputModelFilename env ≠ "")) eqn:Hname;
         [ specialize (HS (proj1 (bool_decide_eq_true _) Hname)) | clear HS ]);
        clear Hin; unfold try_block, bind, call, when, print, ret, throw; simpl;
        repeat match goal with H : _ = _ |- _ => rewrite H; simpl end; reflexivity.
    - destruct (Hin eq_refl) as [Hdim HA]. apply N.eqb_neq in Hdim.
      destruct (verbose env) eqn:Hverbose; [ specialize (HE eq_refl) | ];
        (destruct (bool_decide (outputModelFilename env ≠ "")) eqn:Hname;
         [ specialize (HS (proj1 (bool_decide_eq_true _) Hname)) | clear HS ]);
        clear Hin; unfold try_block, bind, call, when, print, ret, throw; simpl;
        repeat match goal with H : _ = _ |- _ => rewrite H; simpl end; reflexivity. }
  pose proof (try_block_writes_to_cout env) as Hout.
  unfold main. destruct (try_block env []) as [o out]. simpl in *. subst o.
  by split.
Qed.

Lemma main_returns_0_witness :
  runs_to_completion skips_three_calls
  ∧ (main skips_three_calls).1 = returns 0
  ∧ Forall (λ line, line.1 = cout) (main skips_three_calls).2.
Proof.
  assert (Hruns : runs_to_completion skips_three_calls).
  { unfold runs_to_completion. simpl. repeat split; try reflexivity; try discriminate.
    all: intros Hne; by destruct Hne. }
  split; [ exact Hruns | ].
  exact (main_returns_0 skips_three_calls Hruns).
Defined.

(** X13 (command line errors).  When the command line parser throws its
    error exception, [main] returns 1 and has written to [cerr] the line
    ["Command line parse error:"] followed by the messages of the parse
    errors in their order, and nothing else, also in verbose mode. *)
Theorem main_reports_parse_errors (env : Collaborators) (parseErrors : list string) :
  Parse env = Throw (CommandLineParserErrorException parseErrors) →
  main env
  = (returns 1, (cerr, "Command line parse error:") :: map (λ m, (cerr, m)) parseErrors).
Proof. intros HParse. by run_main. Qed.

Lemma main_reports_parse_errors_witness :
  let env := run_with (Throw (CommandLineParserErrorException ["a"; "b"])) (Return tt) 2 in
  Parse env = Throw (CommandLineParserErrorException ["a"; "b"])
  ∧ main env
    = (returns 1, [(cerr, "Command line parse error:"); (cerr, "a"); (cerr, "b")]).
Proof.
  intros env. split; [ reflexivity | ].
  exact (main_reports_parse_errors env ["a"; "b"] eq_refl).
Defined.

(** X14 (exceptions that escape).  An exception that none of the three
    handlers matches, such as the [std::runtime_error] of
    [Variant::GetValue] or [std::bad_alloc], thrown while the map is loaded,
    leaves [main]: [main] returns no status and reports nothing on [cerr]. *)
Theorem main_lets_other_exceptions_escape (env : Collaborators) (e : exception) :
  Parse env = Return tt →
  LoadMap env = Throw e →
  caught_by_main e = false →
  (main env).1 = terminate e ∧ Forall (λ line, line.1 = cout) (main env).2.
Proof.
  intros HParse HLoad He.
  destruct (loading_error_leaves_try_block env e HParse HLoad) as [out Htry].
  pose proof (try_block_writes_to_cout env) as Hout.
  unfold main. rewrite Htry in *. simpl in Hout.
  destruct e; simpl in He; try discriminate; by split.
Qed.

Lemma main_lets_other_exceptions_escape_witness :
  let e := std_runtime_error "Bad variant access" in
  let env := run_with (Return tt) (Throw e) 2 in
  Parse env = Return tt
  ∧ LoadMap env = Throw e
  ∧ caught_by_main e = false
  ∧ (main env).1 = terminate e
  ∧ Forall (λ line, line.1 = cout) (main env).2.
Proof.
  intros e env.
  split; [ reflexivity | split; [ reflexivity | split; [ reflexivity | ] ] ].
  exact (main_lets_other_exceptions_escape env e eq_refl eq_refl eq_refl).
Defined.

(** X15 (quiet mode).  Without the verbose option the [try] block writes
    nothing, however it ends: whatever [main] writes then is written by one
    of its handlers. *)
Theorem try_block_is_quiet (env : Collaborators) :
  verbose env = false → (try_block env []).2 = [].
Proof.
  intros Hverbose.
  unfold try_block, bind, call, when, print, ret, throw. rewrite Hverbose. simpl.
  repeat match goal with
         | |- context [ if ?b then _ else _ ] => destruct b; simpl
         | |- context [ match ?o with Return _ => _ | Throw _ => _ | Undefined => _ end ] =>
             destruct o; simpl
         end; reflexivity.
Qed.

Lemma try_block_is_quiet_witness :
  verbose skips_three_calls = false
  ∧ (try_block skips_three_calls []).2 = [].
Proof.
  split; [ reflexivity | ].
  exact (try_block_is_quiet skips_three_calls eq_refl).
Defined.

(** X16 (the data dimension check).  Without an input map and with the data
    dimension 0, once the parser and the map loader have returned, [main]
    returns 1 with the message of the [InputException] on [cerr], whatever
    the other collaborators would do: none of them is called. *)
Theorem main_requires_dimension_without_map (env : Collaborators) :
  Parse env = Return tt →
  LoadMap env = Return tt →
  HasInputFile env = false →
  parsedDataDimension env = 0%N →
  main env
  = (returns 1,
     (if verbose env
      then [(cout, "Sorting Tree Trainer"); (cout, GetCurrentValuesString env);
            (cout, "Loading data ...")]
      else [])
     ++ [(cerr, "exception: Error, must specify a data dimension if not specifying an input map")]).
Proof.
  intros HParse HLoad Hfile Hdim. run_main. by destruct (verbose env).
Qed.

Lemma main_requires_dimension_without_map_witness :
  let env := run_with (Return tt) (Return tt) 0 in
  Parse env = Return tt
  ∧ LoadMap env = Return tt
  ∧ HasInputFile env = false
  ∧ parsedDataDimension env = 0%N
  ∧ main env
    = (returns 1,
       [(cout, "Sorting Tree Trainer"); (cout, ""); (cout, "Loading data ...");
        (cerr, "exception: Error, must specify a data dimension if not specifying an input map")]).
Proof.
  intros env.
  split; [ reflexivity | split; [ reflexivity | split; [ reflexivity | split; [ reflexivity | ] ] ] ].
  exact (main_requires_dimension_without_map env eq_refl eq_refl eq_refl eq_refl).
Defined.

(** X17 (the exit status and cerr).  Whenever [main] returns, the status is
    0 or 1; with the status 0 nothing was written to [cerr], with the status 1
    something was. *)
Theorem main_status_and_cerr (env : Collaborators) (status : Z) :
  (main env).1 = returns status →
  (status = 0%Z ∧ Forall (λ line, line.1 = cout) (main env).2)
  ∨ (status = 1%Z ∧ Exists (λ line, line.1 = cerr) (main env).2).
Proof.
  pose proof (try_block_writes_to_cout env) as Hout.
  unfold main. destruct (try_block env []) as [[ [] | e | ] out]; simpl in *.
  - intros [= <-]. by left.
  - destruct e; simpl; intros [= <-].
    + right. split; [ done | ]. apply Exists_app. right. by constructor.
    + right. split; [ done | ]. apply Exists_app. right. by constructor.
    + right. split; [ done | ]. apply Exists_app. right. by constructor.
    + left. split; [ done | ]. apply Forall_app. split; [ done | by repeat constructor ].
    + right. split; [ done | ]. apply Exists_app. right. by constructor.
  - discriminate.
Qed.

Lemma main_status_and_cerr_witness :
  (main no_map_no_dimension).1 = returns 1
  ∧ ((1 = 0 ∧ Forall (λ line, line.1 = cout) (main no_map_no_dimension).2)
     ∨ (1 = 1 ∧ Exists (λ line, line.1 = cerr) (main no_map_no_dimension).2))%Z.
Proof.
  split; [ reflexivity | ].
  exact (main_status_and_cerr no_map_no_dimension 1%Z eq_refl).
Defined.

End DriverRuns.
